(** * The request/response adapter of examples/python-agent/agent.py

    A shallow embedding of [run_agent]: the script reads one JSON request on
    standard input, builds the options of the agent SDK, consumes the message
    stream of [query] and prints one JSON object.

    The libraries the script calls (json.loads, the SDK's
    [ClaudeAgentOptions] and [query]) are not part of the repository; they
    are the fields of an [Environment].  What the script does with them is
    written in a small state-and-exception monad whose state holds the calls
    made to the SDK and the objects printed on standard output. *)

From Stdlib Require Import String List Bool ZArith.
From Stdlib Require Import Floats.SpecFloat.
Import ListNotations.
Set Warnings "-register-all".
Local Open Scope string_scope.
Local Open Scope list_scope.

(** ** Python values *)

(** The values json.loads can return, which are also the values json.dumps
    is given.  A float is the IEEE 754 number it denotes.  A dict keeps its
    keys in insertion order and holds a key at most once. *)
Inductive value : Type :=
  | VNone
  | VBool (b : bool)
  | VInt (z : Z)
  | VFloat (f : spec_float)
  | VStr (s : string)
  | VList (l : list value)
  | VDict (d : list (string * value)).

(** An exception object, as far as the script can observe it: its class
    name, whether it is an instance of the class [Exception] (what the
    clause [except Exception] tests; KeyboardInterrupt, SystemExit and
    asyncio.CancelledError derive from BaseException only) and [str(e)]. *)
Record exception : Type := mkException {
  exc_class : string;
  isinstance_Exception : bool;
  str : string
}.

Fixpoint dict_get (key : string) (d : list (string * value)) : option value :=
  match d with
  | [] => None
  | (k, v) :: d' => if String.eqb k key then Some v else dict_get key d'
  end.

(** [str(KeyError(key))] is [repr(key)]; the keys the script subscripts with
    hold no quote, backslash or unprintable character, so that is the key
    between single quotes. *)
Definition KeyError (key : string) : exception :=
  mkException "KeyError" true ("'" ++ key ++ "'")%string.

(** The message of the TypeError raised by [obj[key]] with a str key on an
    object that is not a dict (CPython's wording). *)
Definition subscript_message (obj : value) : string :=
  match obj with
  | VNone => "'NoneType' object is not subscriptable"
  | VBool _ => "'bool' object is not subscriptable"
  | VInt _ => "'int' object is not subscriptable"
  | VFloat _ => "'float' object is not subscriptable"
  | VStr _ => "string indices must be integers, not 'str'"
  | VList _ => "list indices must be integers or slices, not str"
  | VDict _ => ""
  end.

Definition TypeError (message : string) : exception :=
  mkException "TypeError" true message.

(** [obj[key]] for a str [key]. *)
Definition getitem (obj : value) (key : string) : exception + value :=
  match obj with
  | VDict d =>
      match dict_get key d with
      | Some v => inr v
      | None => inl (KeyError key)
      end
  | _ => inl (TypeError (subscript_message obj))
  end.

(** [x or default] on an optional str: None and the empty str are false. *)
Definition or_str (x : option string) (default : string) : string :=
  match x with
  | None => default
  | Some s => if String.eqb s "" then default else s
  end.

Section Process.

(** The SDK's types the script only passes around: the options object,
    the message classes other than ResultMessage, and the attributes of a
    ResultMessage the script never reads (duration_ms, is_error,
    num_turns, session_id, ...). *)
Context {Options OtherMessage ResultAttributes : Type}.

Record ResultMessage : Type := mkResultMessage {
  subtype : string;
  result : option string;
  attributes : ResultAttributes
}.

(** A message of the stream; [isinstance(msg, ResultMessage)] is the
    match on the constructor. *)
Inductive Message : Type :=
  | Result (m : ResultMessage)
  | Other (m : OtherMessage).

(** The asynchronous generator returned by [query], by what pulling the
    next item does: it is exhausted, it raises, or it yields a message.
    Calling [query] runs nothing, so a failure to connect is a [Raise] at
    the first pull.  A generator that yields for ever is not in this type:
    the script would then never print. *)
Inductive stream : Type :=
  | StopAsyncIteration
  | Raise (e : exception)
  | Yield (msg : Message) (rest : stream).

Record Environment : Type := mkEnvironment {
  (** json.loads on the text read from standard input *)
  json_loads : string -> exception + value;
  (** ClaudeAgentOptions(cwd=..., allowed_tools=...) *)
  ClaudeAgentOptions : value -> list string -> exception + Options;
  (** query(prompt=..., options=...) *)
  query : value -> Options -> stream
}.

(** ** The process monad *)

Inductive call : Type :=
  | CallClaudeAgentOptions (cwd : value) (allowed_tools : list string)
  | CallQuery (prompt : value) (options : Options).

(** What the process has done so far: the calls made to the SDK, oldest
    first, and the objects written to standard output, one
    [print(json.dumps(obj))] line each, oldest first. *)
Record process : Type := mkProcess {
  calls : list call;
  stdout : list value
}.

Definition Proc (A : Type) : Type := process -> process * (exception + A).

Definition ret {A} (a : A) : Proc A := fun p => (p, inr a).

Definition bind {A B} (m : Proc A) (k : A -> Proc B) : Proc B :=
  fun p =>
    match m p with
    | (p', inr a) => k a p'
    | (p', inl e) => (p', inl e)
    end.

(** A pure computation that may raise. *)
Definition lift {A} (r : exception + A) : Proc A := fun p => (p, r).

Definition record_call (c : call) : Proc unit :=
  fun p => (mkProcess (calls p ++ [c]) (stdout p), inr tt).

(** [print(json.dumps(obj))] *)
Definition print_json (obj : value) : Proc unit :=
  fun p => (mkProcess (calls p) (stdout p ++ [obj]), inr tt).

(** [try: body  except Exception as e: handler e] *)
Definition try_except_Exception {A} (body : Proc A)
    (handler : exception -> Proc A) : Proc A :=
  fun p =>
    match body p with
    | (p', inr a) => (p', inr a)
    | (p', inl e) =>
        if isinstance_Exception e then handler e p' else (p', inl e)
    end.

End Process.

Arguments ResultMessage : clear implicits.
Arguments Message : clear implicits.
Arguments stream : clear implicits.
Arguments Environment : clear implicits.
Arguments call : clear implicits.
Arguments process : clear implicits.
Arguments Proc : clear implicits.

Declare Scope proc_scope.
Delimit Scope proc_scope with proc.
Notation "x <- m ;; k" := (bind m (fun x => k))
  (at level 61, m at next level, right associativity) : proc_scope.
Notation "m ;;; k" := (bind m (fun _ => k))
  (at level 61, right associativity) : proc_scope.
Local Open Scope proc_scope.

(** ** The script *)

Section Script.

Context {Options OtherMessage ResultAttributes : Type}.

Variable env : Environment Options OtherMessage ResultAttributes.

Definition allowed_tools : list string :=
  ["Read"; "Write"; "Edit"; "Glob"; "Grep"; "Bash"].

(** The body of the loop, on the locals [(output, success)]:
<<
    if isinstance(msg, ResultMessage):
        output = msg.result or ""
        success = msg.subtype == "success"
>> *)
Definition loop_body (msg : Message OtherMessage ResultAttributes)
    (locals : string * bool) : string * bool :=
  match msg with
  | Result m => (or_str (result m) "", String.eqb (subtype m) "success")
  | Other _ => locals
  end.

(** [async for msg in s: body], on the locals the body assigns. *)
Fixpoint async_for {L : Type} (s : stream OtherMessage ResultAttributes)
    (body : Message OtherMessage ResultAttributes -> L -> L) (locals : L)
    : exception + L :=
  match s with
  | StopAsyncIteration => inr locals
  | Raise e => inl e
  | Yield msg rest => async_for rest body (body msg locals)
  end.

Definition run_agent (stdin : string) : Proc Options unit :=
  request <- lift (json_loads env stdin) ;;
  prompt <- lift (getitem request "prompt") ;;
  context <- lift (getitem request "context") ;;
  cwd <- lift (getitem context "workingDirectory") ;;
  let output := "" in
  let success := false in
  result <-
    try_except_Exception
      (record_call (CallClaudeAgentOptions cwd allowed_tools) ;;;
       options <- lift (ClaudeAgentOptions env cwd allowed_tools) ;;
       record_call (CallQuery prompt options) ;;;
       locals <- lift (async_for (query env prompt options) loop_body
                         (output, success)) ;;
       let '(output, success) := locals in
       ret (VDict [("output", VStr output); ("success", VBool success)]))
      (fun e =>
         ret (VDict [("output", VStr ""); ("success", VBool false);
                     ("error", VStr (str e))])) ;;
  print_json result.

(** [asyncio.run(run_agent())] in a fresh process.  [inr tt] is the
    normal return (exit status 0); [inl e] is an exception nobody caught:
    the interpreter prints a traceback on standard error and the exit
    status is not 0. *)
Definition main (stdin : string) : process Options * (exception + unit) :=
  run_agent stdin (mkProcess [] []).

End Script.

(** ** Message streams *)

Section Streams.

Context {OtherMessage ResultAttributes : Type}.

(** The generator that yields [msgs] in order and then behaves as [tail]. *)
Fixpoint yields (msgs : list (Message OtherMessage ResultAttributes))
    (tail : stream OtherMessage ResultAttributes)
    : stream OtherMessage ResultAttributes :=
  match msgs with
  | [] => tail
  | msg :: rest => Yield msg (yields rest tail)
  end.

(** A message stream: the generator yields [msgs] and is exhausted. *)
Definition completed (msgs : list (Message OtherMessage ResultAttributes))
    : stream OtherMessage ResultAttributes :=
  yields msgs StopAsyncIteration.

(** The generator yields [msgs] and the next pull raises [e]. *)
Definition failing (msgs : list (Message OtherMessage ResultAttributes))
    (e : exception) : stream OtherMessage ResultAttributes :=
  yields msgs (Raise e).

(** The result messages of a stream, in stream order. *)
Fixpoint results (msgs : list (Message OtherMessage ResultAttributes))
    : list (ResultMessage ResultAttributes) :=
  match msgs with
  | [] => []
  | Result m :: rest => m :: results rest
  | Other _ :: rest => results rest
  end.

(** The last result message of a stream, if it has one. *)
Definition last_result (msgs : list (Message OtherMessage ResultAttributes))
    : option (ResultMessage ResultAttributes) :=
  last (map Some (results msgs)) None.

(** The two attributes of a result message the script reads. *)
Definition inspected (m : ResultMessage ResultAttributes)
    : string * option string :=
  (subtype m, result m).

Definition result_is_None (m : ResultMessage ResultAttributes) : bool :=
  match result m with
  | None => true
  | Some _ => false
  end.

End Streams.

(** [obj.get(name)] on a printed object. *)
Definition field (name : string) (obj : value) : option value :=
  match obj with
  | VDict d => dict_get name d
  | _ => None
  end.

(** The environment [env] with another [query]. *)
Definition with_query {Options OtherMessage ResultAttributes : Type}
    (env : Environment Options OtherMessage ResultAttributes)
    (query' : value -> Options -> stream OtherMessage ResultAttributes)
    : Environment Options OtherMessage ResultAttributes :=
  mkEnvironment (json_loads env) (ClaudeAgentOptions env) query'.

(** ** A sample environment

    One request text per shape of request, an options constructor that keeps
    its keyword arguments, and a [query] that plays a given stream. *)

Definition quoted (s : string) : string :=
  let dq := String (Ascii.ascii_of_nat 34) "" in
  (dq ++ s ++ dq)%string.

(** The text read from standard input for a well-formed request. *)
Definition sample_stdin : string :=
  ("{" ++ quoted "prompt" ++ ": " ++ quoted "fix the tests" ++ ", "
   ++ quoted "context" ++ ": {" ++ quoted "workingDirectory" ++ ": "
   ++ quoted "/repo" ++ "}}")%string.

Definition sample_context : value :=
  VDict [("workingDirectory", VStr "/repo")].

Definition sample_request : value :=
  VDict [("prompt", VStr "fix the tests"); ("context", sample_context)].

Definition stdin_without_prompt : string :=
  ("{" ++ quoted "context" ++ ": {" ++ quoted "workingDirectory" ++ ": "
   ++ quoted "/repo" ++ "}}")%string.

Definition stdin_without_context : string :=
  ("{" ++ quoted "prompt" ++ ": " ++ quoted "fix the tests" ++ "}")%string.

Definition stdin_without_workingDirectory : string :=
  ("{" ++ quoted "prompt" ++ ": " ++ quoted "fix the tests" ++ ", "
   ++ quoted "context" ++ ": {}}")%string.

Definition stdin_with_null_context : string :=
  ("{" ++ quoted "prompt" ++ ": " ++ quoted "fix the tests" ++ ", "
   ++ quoted "context" ++ ": null}")%string.

Definition sample_documents : list (string * value) :=
  [ (sample_stdin, sample_request);
    (stdin_without_prompt, VDict [("context", sample_context)]);
    (stdin_without_context, VDict [("prompt", VStr "fix the tests")]);
    (stdin_without_workingDirectory,
     VDict [("prompt", VStr "fix the tests"); ("context", VDict [])]);
    (stdin_with_null_context,
     VDict [("prompt", VStr "fix the tests"); ("context", VNone)]) ].

Definition JSONDecodeError (message : string) : exception :=
  mkException "JSONDecodeError" true message.

(** json.loads on the sample texts; every other text, the empty one among
    them, is rejected. *)
Definition sample_loads (text : string) : exception + value :=
  match dict_get text sample_documents with
  | Some v => inr v
  | None =>
      inl (JSONDecodeError "Expecting value: line 1 column 1 (char 0)")
  end.

Definition sample_options : Type := (value * list string)%type.

Definition sample_env (s : stream string unit)
    : Environment sample_options string unit :=
  mkEnvironment sample_loads (fun cwd tools => inr (cwd, tools))
    (fun _ _ => s).

(** An environment whose options constructor raises [e]. *)
Definition sample_env_no_options (e : exception)
    : Environment sample_options string unit :=
  mkEnvironment sample_loads (fun _ _ => inl e)
    (fun _ _ => StopAsyncIteration).

Definition connection_lost : exception :=
  mkException "ConnectionError" true "connection lost".

(** Raised where the interpreter is when the user interrupts it; derives
    from BaseException, not from Exception. *)
Definition KeyboardInterrupt : exception :=
  mkException "KeyboardInterrupt" false "".

Definition result_message (subtype : string) (result : option string)
    : Message string unit :=
  Result (mkResultMessage subtype result tt).

(** ** More requests

    Request texts of other shapes: a JSON array, a JSON null, and a request
    object that carries keys the script does not read. *)

Definition stdin_with_extra_keys : string :=
  ("{" ++ quoted "id" ++ ": 7, " ++ quoted "prompt" ++ ": "
   ++ quoted "fix the tests" ++ ", " ++ quoted "context" ++ ": {"
   ++ quoted "workingDirectory" ++ ": " ++ quoted "/repo" ++ ", "
   ++ quoted "branch" ++ ": " ++ quoted "main" ++ "}}")%string.

Definition context_with_extra_keys : value :=
  VDict [("workingDirectory", VStr "/repo"); ("branch", VStr "main")].

Definition request_with_extra_keys : value :=
  VDict [("id", VInt 7); ("prompt", VStr "fix the tests");
         ("context", context_with_extra_keys)].

Definition more_documents : list (string * value) :=
  [ (sample_stdin, sample_request);
    (stdin_with_extra_keys, request_with_extra_keys);
    ("[1, 2]", VList [VInt 1; VInt 2]);
    ("null", VNone) ].

Definition more_loads (text : string) : exception + value :=
  match dict_get text more_documents with
  | Some v => inr v
  | None =>
      inl (JSONDecodeError "Expecting value: line 1 column 1 (char 0)")
  end.

Definition more_env (s : stream string unit)
    : Environment sample_options string unit :=
  mkEnvironment more_loads (fun cwd tools => inr (cwd, tools))
    (fun _ _ => s).

(** Raised by [sys.exit]; derives from BaseException, not from Exception. *)
Definition SystemExit : exception :=
  mkException "SystemExit" false "1".

(** ** The loop *)

Section Loop.

Context {OtherMessage ResultAttributes : Type}.

Implicit Types (msgs : list (Message OtherMessage ResultAttributes))
  (m : ResultMessage ResultAttributes) (locals : string * bool).

(** What a result message leaves in the locals. *)
Definition capture m : string * bool :=
  (or_str (result m) "", String.eqb (subtype m) "success").

(** The locals after the messages of [msgs], starting from [locals]. *)
Definition after msgs locals : string * bool :=
  fold_left (fun l msg => loop_body msg l) msgs locals.

Lemma async_for_yields {L : Type} msgs tail
    (body : Message OtherMessage ResultAttributes -> L -> L) (l : L) :
  async_for (yields msgs tail) body l
  = async_for tail body (fold_left (fun l msg => body msg l) msgs l).
Proof.
  revert l; induction msgs as [|msg rest IH]; intro l; cbn.
  - reflexivity.
  - apply IH.
Qed.

Lemma async_for_completed msgs locals :
  async_for (completed msgs) loop_body locals = inr (after msgs locals).
Proof. unfold completed; now rewrite async_for_yields. Qed.

Lemma async_for_failing msgs e locals :
  async_for (failing msgs e) loop_body locals = inl e.
Proof. unfold failing; now rewrite async_for_yields. Qed.

Lemma last_result_cons_Result m msgs :
  last_result (Result m :: msgs)
  = match last_result msgs with
    | Some m' => Some m'
    | None => Some m
    end.
Proof.
  unfold last_result; cbn [results map].
  destruct (results msgs) as [|m' ms]; [reflexivity|].
  change (last (Some m :: map Some (m' :: ms)) None)
    with (last (map Some (m' :: ms)) None).
  generalize m'; clear m'.
  induction ms as [|m'' ms IH]; intro m'; [reflexivity|].
  change (last (map Some (m' :: m'' :: ms)) None)
    with (last (map Some (m'' :: ms)) None).
  apply IH.
Qed.

Lemma last_result_cons_Other (o : OtherMessage) msgs :
  last_result (Other o :: msgs) = last_result msgs.
Proof. reflexivity. Qed.

Lemma last_result_None msgs :
  last_result msgs = None <-> results msgs = [].
Proof.
  induction msgs as [|[m|o] rest IH].
  - now split.
  - rewrite last_result_cons_Result.
    destruct (last_result rest); split; discriminate.
  - rewrite last_result_cons_Other; exact IH.
Qed.

(** The loop keeps the capture of the last result message, and the initial
    locals when there is none. *)
Lemma after_last_result msgs locals :
  after msgs locals
  = match last_result msgs with
    | Some m => capture m
    | None => locals
    end.
Proof.
  revert locals; induction msgs as [|[m|o] rest IH]; intro locals.
  - reflexivity.
  - rewrite last_result_cons_Result.
    change (after (Result m :: rest) locals) with (after rest (capture m)).
    rewrite IH. now destruct (last_result rest).
  - rewrite last_result_cons_Other. apply IH.
Qed.

Lemma results_app msgs msgs' :
  results (msgs ++ msgs') = results msgs ++ results msgs'.
Proof.
  induction msgs as [|[m|o] rest IH]; cbn; [reflexivity| |exact IH].
  now rewrite IH.
Qed.

(** A message that is not a result message adds nothing to [results],
    wherever it stands. *)
Lemma results_insert_Other msgs msgs' (o : OtherMessage) :
  results (msgs ++ Other o :: msgs') = results (msgs ++ msgs').
Proof. now rewrite !results_app. Qed.

Lemma last_map_Some {A B : Type} (f : A -> B) (l : list A) :
  last (map Some (map f l)) None = option_map f (last (map Some l) None).
Proof.
  induction l as [|a [|b l] IH]; [reflexivity..|].
  change (last (map Some (map f (b :: l))) None
          = option_map f (last (map Some (b :: l)) None)).
  exact IH.
Qed.

(** The locals after a stream depend on the inspected attributes of its
    result messages only. *)
Lemma after_inspected msgs msgs' locals :
  map inspected (results msgs) = map inspected (results msgs') ->
  after msgs locals = after msgs' locals.
Proof.
  intro H. rewrite !after_last_result.
  assert (E : option_map inspected (last_result msgs)
              = option_map inspected (last_result msgs')).
  { unfold last_result. now rewrite <- !last_map_Some, H. }
  destruct (last_result msgs) as [m|], (last_result msgs') as [m'|];
    try discriminate; [|reflexivity].
  injection E as Hs Hr. unfold capture. now rewrite Hs, Hr.
Qed.

(** While every result message carries no text, the captured output stays
    empty. *)
Lemma after_result_is_None msgs locals :
  fst locals = "" ->
  forallb result_is_None (results msgs) = true ->
  fst (after msgs locals) = "".
Proof.
  revert locals; induction msgs as [|[m|o] rest IH]; intros locals Hl Hall.
  - exact Hl.
  - cbn in Hall. apply andb_prop in Hall as [Hm Hrest].
    apply (IH (capture m)); [|exact Hrest].
    unfold result_is_None in Hm. unfold capture.
    now destruct (result m).
  - apply (IH locals Hl Hall).
Qed.

End Loop.

(** ** One run of the script *)

Section Failures.

Context {Options OtherMessage ResultAttributes : Type}.
Variable env : Environment Options OtherMessage ResultAttributes.
Variable stdin : string.

(** Nothing was called and nothing was printed when json.loads raises. *)
Lemma main_loads_raises e :
  json_loads env stdin = inl e ->
  main env stdin = (mkProcess [] [], inl e).
Proof.
  intro H. unfold main, run_agent, bind, lift. now rewrite H.
Qed.

Lemma main_prompt_raises request e :
  json_loads env stdin = inr request ->
  getitem request "prompt" = inl e ->
  main env stdin = (mkProcess [] [], inl e).
Proof.
  intros H1 H2. unfold main, run_agent, bind, lift. now rewrite H1, H2.
Qed.

Lemma main_context_raises request prompt e :
  json_loads env stdin = inr request ->
  getitem request "prompt" = inr prompt ->
  getitem request "context" = inl e ->
  main env stdin = (mkProcess [] [], inl e).
Proof.
  intros H1 H2 H3. unfold main, run_agent, bind, lift.
  now rewrite H1, H2, H3.
Qed.

Lemma main_workingDirectory_raises request prompt context e :
  json_loads env stdin = inr request ->
  getitem request "prompt" = inr prompt ->
  getitem request "context" = inr context ->
  getitem context "workingDirectory" = inl e ->
  main env stdin = (mkProcess [] [], inl e).
Proof.
  intros H1 H2 H3 H4. unfold main, run_agent, bind, lift.
  now rewrite H1, H2, H3, H4.
Qed.

End Failures.

Section Run.

Context {Options OtherMessage ResultAttributes : Type}.
Variable env : Environment Options OtherMessage ResultAttributes.
Variable stdin : string.
Variables request prompt context cwd : value.

(** The request is well formed: standard input parses and holds the two
    fields the script reads. *)
Hypothesis Hloads : json_loads env stdin = inr request.
Hypothesis Hprompt : getitem request "prompt" = inr prompt.
Hypothesis Hcontext : getitem request "context" = inr context.
Hypothesis Hcwd : getitem context "workingDirectory" = inr cwd.

Lemma main_options_raises e :
  ClaudeAgentOptions env cwd allowed_tools = inl e ->
  main env stdin
  = if isinstance_Exception e
    then (mkProcess [CallClaudeAgentOptions cwd allowed_tools]
            [VDict [("output", VStr ""); ("success", VBool false);
                    ("error", VStr (str e))]],
          inr tt)
    else (mkProcess [CallClaudeAgentOptions cwd allowed_tools] [], inl e).
Proof.
  intro H.
  unfold main, run_agent, bind, lift, try_except_Exception, record_call.
  rewrite Hloads, Hprompt, Hcontext, Hcwd. cbn. rewrite H.
  now destruct (isinstance_Exception e).
Qed.

Lemma main_query options :
  ClaudeAgentOptions env cwd allowed_tools = inr options ->
  main env stdin
  = match async_for (query env prompt options) loop_body ("", false) with
    | inr (output, success) =>
        (mkProcess [CallClaudeAgentOptions cwd allowed_tools;
                    CallQuery prompt options]
           [VDict [("output", VStr output); ("success", VBool success)]],
         inr tt)
    | inl e =>
        if isinstance_Exception e
        then (mkProcess [CallClaudeAgentOptions cwd allowed_tools;
                         CallQuery prompt options]
                [VDict [("output", VStr ""); ("success", VBool false);
                        ("error", VStr (str e))]],
              inr tt)
        else (mkProcess [CallClaudeAgentOptions cwd allowed_tools;
                         CallQuery prompt options] [], inl e)
    end.
Proof.
  intro H.
  unfold main, run_agent, bind, lift, try_except_Exception, record_call.
  rewrite Hloads, Hprompt, Hcontext, Hcwd. cbn. rewrite H. cbn.
  destruct (async_for (query env prompt options) loop_body ("", false))
    as [e|[output success]]; cbn; [|reflexivity].
  now destruct (isinstance_Exception e).
Qed.

(** A stream that is exhausted without raising: both calls were made, one
    object was printed and the script returned. *)
Lemma main_completed options msgs :
  ClaudeAgentOptions env cwd allowed_tools = inr options ->
  query env prompt options = completed msgs ->
  main env stdin
  = (mkProcess [CallClaudeAgentOptions cwd allowed_tools;
                CallQuery prompt options]
       [VDict [("output", VStr (fst (after msgs ("", false))));
               ("success", VBool (snd (after msgs ("", false))))]],
     inr tt).
Proof.
  intros Ho Hq. rewrite (main_query _ Ho), Hq, async_for_completed.
  now destruct (after msgs ("", false)).
Qed.

(** An instance of Exception raised by the options constructor or by the
    stream is caught: the error object is printed and the script returns. *)
Lemma main_caught e :
  isinstance_Exception e = true ->
  ClaudeAgentOptions env cwd allowed_tools = inl e
  \/ (exists options msgs,
        ClaudeAgentOptions env cwd allowed_tools = inr options
        /\ query env prompt options = failing msgs e) ->
  stdout (fst (main env stdin))
  = [VDict [("output", VStr ""); ("success", VBool false);
            ("error", VStr (str e))]]
  /\ snd (main env stdin) = inr tt.
Proof.
  intros He [H|(options & msgs & Ho & Hq)].
  - rewrite (main_options_raises _ H), He. now split.
  - rewrite (main_query _ Ho), Hq, async_for_failing, He. now split.
Qed.

End Run.

(** ** Streams that are exhausted without raising *)

Section Completed.

Context {Options OtherMessage ResultAttributes : Type}.
Variable env : Environment Options OtherMessage ResultAttributes.
Variable stdin : string.
Variables request prompt context cwd : value.
Variable options : Options.
Variable msgs : list (Message OtherMessage ResultAttributes).

Hypothesis Hloads : json_loads env stdin = inr request.
Hypothesis Hprompt : getitem request "prompt" = inr prompt.
Hypothesis Hcontext : getitem request "context" = inr context.
Hypothesis Hcwd : getitem context "workingDirectory" = inr cwd.
Hypothesis Hoptions : ClaudeAgentOptions env cwd allowed_tools = inr options.
(** [query] returns the message stream [msgs]. *)
Hypothesis Hquery : query env prompt options = completed msgs.

Let run_completed :=
  main_completed env stdin request prompt context cwd
    Hloads Hprompt Hcontext Hcwd options msgs Hoptions Hquery.

(** C1: when the message stream holds at least one result message, the
    [success] field of the printed response is true exactly when the subtype
    of the last result message is the string "success"; with any other
    subtype it is false. *)
Theorem C1_success_iff_last_subtype (m : ResultMessage ResultAttributes) :
  last_result msgs = Some m ->
  exists response,
    stdout (fst (main env stdin)) = [response]
    /\ (field "success" response = Some (VBool true)
        <-> subtype m = "success")
    /\ (subtype m <> "success"
        -> field "success" response = Some (VBool false)).
Proof.
  intro Hlast. rewrite run_completed, after_last_result, Hlast.
  eexists; split; [reflexivity|]. cbn.
  destruct (String.eqb_spec (subtype m) "success") as [E|E].
  - split; [now split|]. now intros [].
  - split; [split; [discriminate|contradiction]|reflexivity].
Qed.

(** C3: when the message stream holds two or more result messages, the
    printed [output] and [success] are those captured from the last one;
    as the loop runs, the locals after any result message are the capture
    of that message, whatever the earlier messages left. *)
Theorem C3_last_result_wins (m : ResultMessage ResultAttributes) :
  2 <= length (results msgs) ->
  last_result msgs = Some m ->
  stdout (fst (main env stdin))
  = [VDict [("output", VStr (or_str (result m) ""));
            ("success", VBool (String.eqb (subtype m) "success"))]]
  /\ forall before later rest,
       msgs = before ++ Result later :: rest ->
       after (before ++ [Result later]) ("", false) = capture later.
Proof.
  intros _ Hlast. split.
  - now rewrite run_completed, after_last_result, Hlast.
  - intros before later rest _. unfold after.
    now rewrite fold_left_app.
Qed.

(** C5: when the message stream holds no result message (the empty stream
    included), the script prints exactly the object with [output] empty and
    [success] false, which has no [error] field, and returns normally. *)
Theorem C5_no_result_message :
  results msgs = [] ->
  stdout (fst (main env stdin))
  = [VDict [("output", VStr ""); ("success", VBool false)]]
  /\ snd (main env stdin) = inr tt
  /\ Forall (fun response => field "error" response = None)
       (stdout (fst (main env stdin))).
Proof.
  intro Hnone. apply last_result_None in Hnone.
  rewrite run_completed, after_last_result, Hnone. cbn.
  repeat split. now constructor.
Qed.

(** C6: a result message whose [result] is None leaves the empty string in
    [output]; and when the last result message of the stream has subtype
    "error_max_turns" and [result] None, the script prints exactly the
    object with [output] empty and [success] false. *)
Theorem C6_null_result_is_empty_output :
  (forall (m : ResultMessage ResultAttributes) locals,
     result m = None ->
     fst (loop_body (@Result OtherMessage ResultAttributes m) locals) = "")
  /\ (forall m : ResultMessage ResultAttributes,
        last_result msgs = Some m ->
        subtype m = "error_max_turns" ->
        result m = None ->
        stdout (fst (main env stdin))
        = [VDict [("output", VStr ""); ("success", VBool false)]]).
Proof.
  split.
  - intros m locals Hr. cbn. now rewrite Hr.
  - intros m Hlast Hs Hr.
    rewrite run_completed, after_last_result, Hlast.
    unfold capture. now rewrite Hs, Hr.
Qed.

(** C8: messages that are not result messages do not count.  If [query]
    returned instead a stream whose result messages, in order, have the same
    [subtype] and [result], the run is the same: same calls, same printed
    object, same return.  In particular the run is the same after inserting
    a message that is not a result message anywhere in the stream, and
    after removing one. *)
Theorem C8_other_messages_ignored :
  (forall (query' : value -> Options -> stream OtherMessage ResultAttributes)
     (msgs' : list (Message OtherMessage ResultAttributes)),
     query' prompt options = completed msgs' ->
     map inspected (results msgs') = map inspected (results msgs) ->
     main (with_query env query') stdin = main env stdin)
  /\ (forall (query' : value -> Options -> stream OtherMessage ResultAttributes)
        before rest (o : OtherMessage),
        msgs = before ++ rest ->
        query' prompt options = completed (before ++ Other o :: rest) ->
        main (with_query env query') stdin = main env stdin)
  /\ (forall (query' : value -> Options -> stream OtherMessage ResultAttributes)
        before rest (o : OtherMessage),
        msgs = before ++ Other o :: rest ->
        query' prompt options = completed (before ++ rest) ->
        main (with_query env query') stdin = main env stdin).
Proof.
  assert (Hsame : forall query' msgs',
            query' prompt options = completed msgs' ->
            map inspected (results msgs') = map inspected (results msgs) ->
            main (with_query env query') stdin = main env stdin).
  { intros query' msgs' Hq' Hsame. rewrite run_completed.
    rewrite (main_completed (with_query env query') stdin request prompt
               context cwd Hloads Hprompt Hcontext Hcwd options msgs'
               Hoptions Hq').
    now rewrite (after_inspected msgs' msgs _ Hsame). }
  split; [exact Hsame|]. split.
  - intros query' before rest o Hmsgs Hq'.
    apply (Hsame query' _ Hq').
    now rewrite results_insert_Other, Hmsgs.
  - intros query' before rest o Hmsgs Hq'.
    apply (Hsame query' _ Hq').
    now rewrite Hmsgs, results_insert_Other.
Qed.

(** C9: when every result message of the stream has [result] None, the
    [output] field of the printed response is the empty string, and so is
    the [output] field printed for a stream without result messages: the
    two fields are equal. *)
Theorem C9_null_result_like_no_result
    (query' : value -> Options -> stream OtherMessage ResultAttributes)
    (msgs' : list (Message OtherMessage ResultAttributes)) :
  forallb result_is_None (results msgs) = true ->
  query' prompt options = completed msgs' ->
  results msgs' = [] ->
  exists response response',
    stdout (fst (main env stdin)) = [response]
    /\ stdout (fst (main (with_query env query') stdin)) = [response']
    /\ field "output" response = field "output" response'
    /\ field "output" response = Some (VStr "").
Proof.
  intros Hnull Hq' Hnone. rewrite run_completed.
  rewrite (main_completed (with_query env query') stdin request prompt
             context cwd Hloads Hprompt Hcontext Hcwd options msgs'
             Hoptions Hq').
  do 2 eexists. do 2 (split; [reflexivity|]). cbn.
  rewrite (after_result_is_None msgs ("", false) eq_refl Hnull).
  apply last_result_None in Hnone.
  rewrite (after_last_result msgs'), Hnone. now split.
Qed.

(** C10: when the last result message of the stream has subtype "success"
    and [result] None, the script prints exactly the object with [output]
    empty and [success] true: a successful response can carry an empty
    output. *)
Theorem C10_success_with_empty_output (m : ResultMessage ResultAttributes) :
  last_result msgs = Some m ->
  subtype m = "success" ->
  result m = None ->
  stdout (fst (main env stdin))
  = [VDict [("output", VStr ""); ("success", VBool true)]]
  /\ exists response,
       In response (stdout (fst (main env stdin)))
       /\ field "success" response = Some (VBool true)
       /\ field "output" response = Some (VStr "").
Proof.
  intros Hlast Hs Hr.
  rewrite run_completed, after_last_result, Hlast.
  unfold capture. rewrite Hs, Hr. cbn. split; [reflexivity|].
  eexists. split; [left; reflexivity|]. now split.
Qed.

End Completed.

(** ** The options object and the failure paths *)

Section Request.

Context {Options OtherMessage ResultAttributes : Type}.
Variable env : Environment Options OtherMessage ResultAttributes.
Variable stdin : string.
Variables request prompt context cwd : value.

Hypothesis Hloads : json_loads env stdin = inr request.
Hypothesis Hprompt : getitem request "prompt" = inr prompt.
Hypothesis Hcontext : getitem request "context" = inr context.
Hypothesis Hcwd : getitem context "workingDirectory" = inr cwd.

(** C7: for every request, the script calls the options constructor once,
    with the working directory taken from the request and the allowed-tools
    list "Read", "Write", "Edit", "Glob", "Grep", "Bash" and nothing else;
    the only other call is [query], made with the prompt of the request and
    the options object that constructor returned. *)
Theorem C7_options_arguments :
  calls (fst (main env stdin))
  = CallClaudeAgentOptions cwd
      ["Read"; "Write"; "Edit"; "Glob"; "Grep"; "Bash"]
    :: match
         ClaudeAgentOptions env cwd
           ["Read"; "Write"; "Edit"; "Glob"; "Grep"; "Bash"]
       with
       | inr options => [CallQuery prompt options]
       | inl _ => []
       end.
Proof.
  change ["Read"; "Write"; "Edit"; "Glob"; "Grep"; "Bash"]
    with allowed_tools.
  destruct (ClaudeAgentOptions env cwd allowed_tools) as [e|options] eqn:Ho.
  - rewrite (main_options_raises env stdin request prompt context cwd
               Hloads Hprompt Hcontext Hcwd e Ho).
    now destruct (isinstance_Exception e).
  - rewrite (main_query env stdin request prompt context cwd
               Hloads Hprompt Hcontext Hcwd options Ho).
    destruct (async_for (query env prompt options) loop_body ("", false))
      as [e|[output success]]; [|reflexivity].
    now destruct (isinstance_Exception e).
Qed.

(** C2, as the code has it: when an exception that is an instance of
    Exception is raised by the options constructor, or by the stream after
    it yielded any messages, the script prints exactly the object with
    [output] empty, [success] false and [error] the exception's [str], and
    returns normally; nothing captured from the messages yielded before
    remains. *)
Theorem C2_Exception_is_caught (e : exception) :
  isinstance_Exception e = true ->
  ClaudeAgentOptions env cwd allowed_tools = inl e
  \/ (exists options msgs,
        ClaudeAgentOptions env cwd allowed_tools = inr options
        /\ query env prompt options = failing msgs e) ->
  stdout (fst (main env stdin))
  = [VDict [("output", VStr ""); ("success", VBool false);
            ("error", VStr (str e))]]
  /\ snd (main env stdin) = inr tt.
Proof.
  exact (main_caught env stdin request prompt context cwd
           Hloads Hprompt Hcontext Hcwd e).
Qed.

End Request.

Section BadRequest.

Context {Options OtherMessage ResultAttributes : Type}.
Variable env : Environment Options OtherMessage ResultAttributes.
Variable stdin : string.

(** C4, as the code has it: when standard input is not JSON, or is a JSON
    object without [prompt], without [context], or whose [context] has no
    [workingDirectory], the exception leaves the script: no call was made
    (the try block was not entered), nothing was printed, and the process
    ends with that exception.  The exceptions of the subscripts are
    instances of Exception, and an instance of Exception is caught when it
    comes from the options constructor or from the stream. *)
Theorem C4_request_failures_uncaught :
  (forall e,
     json_loads env stdin = inl e ->
     main env stdin = (mkProcess [] [], inl e))
  /\ (forall d,
        json_loads env stdin = inr (VDict d) ->
        dict_get "prompt" d = None ->
        main env stdin = (mkProcess [] [], inl (KeyError "prompt")))
  /\ (forall d prompt,
        json_loads env stdin = inr (VDict d) ->
        dict_get "prompt" d = Some prompt ->
        dict_get "context" d = None ->
        main env stdin = (mkProcess [] [], inl (KeyError "context")))
  /\ (forall d prompt context e,
        json_loads env stdin = inr (VDict d) ->
        dict_get "prompt" d = Some prompt ->
        dict_get "context" d = Some context ->
        getitem context "workingDirectory" = inl e ->
        main env stdin = (mkProcess [] [], inl e))
  /\ (forall obj key e,
        getitem obj key = inl e -> isinstance_Exception e = true)
  /\ (forall request prompt context cwd e,
        json_loads env stdin = inr request ->
        getitem request "prompt" = inr prompt ->
        getitem request "context" = inr context ->
        getitem context "workingDirectory" = inr cwd ->
        isinstance_Exception e = true ->
        ClaudeAgentOptions env cwd allowed_tools = inl e
        \/ (exists options msgs,
              ClaudeAgentOptions env cwd allowed_tools = inr options
              /\ query env prompt options = failing msgs e) ->
        stdout (fst (main env stdin))
        = [VDict [("output", VStr ""); ("success", VBool false);
                  ("error", VStr (str e))]]
        /\ snd (main env stdin) = inr tt).
Proof.
  repeat apply conj.
  - apply main_loads_raises.
  - intros d Hl Hp.
    apply (main_prompt_raises env stdin (VDict d)); [exact Hl|].
    cbn. now rewrite Hp.
  - intros d prompt Hl Hp Hc.
    apply (main_context_raises env stdin (VDict d) prompt); [exact Hl| |].
    + cbn. now rewrite Hp.
    + cbn. now rewrite Hc.
  - intros d prompt context e Hl Hp Hc Hw.
    apply (main_workingDirectory_raises env stdin (VDict d) prompt context);
      [exact Hl| | |exact Hw].
    + cbn. now rewrite Hp.
    + cbn. now rewrite Hc.
  - intros obj key e H.
    destruct obj; cbn in H; try (injection H as <-; reflexivity).
    destruct (dict_get key d); [discriminate|].
    injection H as <-; reflexivity.
  - intros request prompt context cwd e Hl Hp Hc Hw.
    exact (main_caught env stdin request prompt context cwd Hl Hp Hc Hw e).
Qed.

End BadRequest.

(** ** The claims on the sample environment *)

(** A stream with an error result followed by a success result. *)
Lemma C1_witness :
  exists response,
    stdout
      (fst (main
              (sample_env
                 (completed
                    [Other "AssistantMessage";
                     result_message "error_during_execution" (Some "partial");
                     result_message "success" (Some "done")]))
              sample_stdin))
    = [response]
    /\ (field "success" response = Some (VBool true)
        <-> "success" = "success")
    /\ ("success" <> "success"
        -> field "success" response = Some (VBool false)).
Proof.
  apply (C1_success_iff_last_subtype
           (sample_env
              (completed
                 [Other "AssistantMessage";
                  result_message "error_during_execution" (Some "partial");
                  result_message "success" (Some "done")]))
           sample_stdin sample_request (VStr "fix the tests") sample_context
           (VStr "/repo") (VStr "/repo", allowed_tools)
           [Other "AssistantMessage";
            result_message "error_during_execution" (Some "partial");
            result_message "success" (Some "done")]
           eq_refl eq_refl eq_refl eq_refl eq_refl eq_refl
           (mkResultMessage "success" (Some "done") tt) eq_refl).
Defined.

(** Two result messages of different subtypes: the second one decides. *)
Lemma C3_witness :
  stdout
    (fst (main
            (sample_env
               (completed
                  [result_message "success" (Some "first");
                   Other "AssistantMessage";
                   result_message "error_max_turns" (Some "second")]))
            sample_stdin))
  = [VDict [("output", VStr "second"); ("success", VBool false)]].
Proof.
  apply (C3_last_result_wins
           (sample_env
              (completed
                 [result_message "success" (Some "first");
                  Other "AssistantMessage";
                  result_message "error_max_turns" (Some "second")]))
           sample_stdin sample_request (VStr "fix the tests") sample_context
           (VStr "/repo") (VStr "/repo", allowed_tools)
           [result_message "success" (Some "first");
            Other "AssistantMessage";
            result_message "error_max_turns" (Some "second")]
           eq_refl eq_refl eq_refl eq_refl eq_refl eq_refl
           (mkResultMessage "error_max_turns" (Some "second") tt)
           (le_n 2) eq_refl).
Defined.

(** The stream that yields nothing. *)
Lemma C5_witness :
  stdout (fst (main (sample_env (completed [])) sample_stdin))
  = [VDict [("output", VStr ""); ("success", VBool false)]]
  /\ snd (main (sample_env (completed [])) sample_stdin) = inr tt.
Proof.
  destruct (C5_no_result_message (sample_env (completed [])) sample_stdin
              sample_request (VStr "fix the tests") sample_context
              (VStr "/repo") (VStr "/repo", allowed_tools) []
              eq_refl eq_refl eq_refl eq_refl eq_refl eq_refl eq_refl)
    as (Hout & Hret & _).
  exact (conj Hout Hret).
Defined.

(** A final result message "error_max_turns" without text. *)
Lemma C6_witness :
  stdout
    (fst (main
            (sample_env
               (completed
                  [Other "AssistantMessage";
                   result_message "error_max_turns" None]))
            sample_stdin))
  = [VDict [("output", VStr ""); ("success", VBool false)]].
Proof.
  apply (proj2
           (C6_null_result_is_empty_output
              (sample_env
                 (completed
                    [Other "AssistantMessage";
                     result_message "error_max_turns" None]))
              sample_stdin sample_request (VStr "fix the tests")
              sample_context (VStr "/repo") (VStr "/repo", allowed_tools)
              [Other "AssistantMessage";
               result_message "error_max_turns" None]
              eq_refl eq_refl eq_refl eq_refl eq_refl eq_refl)
           (mkResultMessage "error_max_turns" None tt)
           eq_refl eq_refl eq_refl).
Defined.

(** One message inserted before the result message and one after it. *)
Lemma C8_witness :
  main
    (with_query (sample_env (completed [result_message "success" (Some "done")]))
       (fun _ _ =>
          completed
            [Other "SystemMessage";
             result_message "success" (Some "done");
             Other "AssistantMessage"]))
    sample_stdin
  = main (sample_env (completed [result_message "success" (Some "done")]))
      sample_stdin.
Proof.
  apply (proj1
           (C8_other_messages_ignored
              (sample_env
                 (completed [result_message "success" (Some "done")]))
              sample_stdin sample_request (VStr "fix the tests")
              sample_context (VStr "/repo") (VStr "/repo", allowed_tools)
              [result_message "success" (Some "done")]
              eq_refl eq_refl eq_refl eq_refl eq_refl eq_refl)
           (fun _ _ =>
              completed
                [Other "SystemMessage";
                 result_message "success" (Some "done");
                 Other "AssistantMessage"])
           [Other "SystemMessage";
            result_message "success" (Some "done");
            Other "AssistantMessage"]
           eq_refl eq_refl).
Defined.

(** Two result messages without text, against a stream of other messages
    only. *)
Lemma C9_witness :
  exists response response',
    stdout
      (fst (main
              (sample_env
                 (completed
                    [result_message "error_max_turns" None;
                     result_message "success" None]))
              sample_stdin))
    = [response]
    /\ stdout
         (fst (main
                 (with_query
                    (sample_env
                       (completed
                          [result_message "error_max_turns" None;
                           result_message "success" None]))
                    (fun _ _ => completed [Other "AssistantMessage"]))
                 sample_stdin))
       = [response']
    /\ field "output" response = field "output" response'
    /\ field "output" response = Some (VStr "").
Proof.
  apply (C9_null_result_like_no_result
           (sample_env
              (completed
                 [result_message "error_max_turns" None;
                  result_message "success" None]))
           sample_stdin sample_request (VStr "fix the tests") sample_context
           (VStr "/repo") (VStr "/repo", allowed_tools)
           [result_message "error_max_turns" None;
            result_message "success" None]
           eq_refl eq_refl eq_refl eq_refl eq_refl eq_refl
           (fun _ _ => completed [Other "AssistantMessage"])
           [Other "AssistantMessage"]
           eq_refl eq_refl eq_refl).
Defined.

(** A success result without text. *)
Lemma C10_witness :
  stdout
    (fst (main (sample_env (completed [result_message "success" None]))
            sample_stdin))
  = [VDict [("output", VStr ""); ("success", VBool true)]].
Proof.
  apply (C10_success_with_empty_output
           (sample_env (completed [result_message "success" None]))
           sample_stdin sample_request (VStr "fix the tests") sample_context
           (VStr "/repo") (VStr "/repo", allowed_tools)
           [result_message "success" None]
           eq_refl eq_refl eq_refl eq_refl eq_refl eq_refl
           (mkResultMessage "success" None tt) eq_refl eq_refl eq_refl).
Defined.

(** The calls of a run on the sample request. *)
Lemma C7_witness :
  calls
    (fst (main (sample_env (completed [result_message "success" (Some "done")]))
            sample_stdin))
  = [CallClaudeAgentOptions (VStr "/repo")
       ["Read"; "Write"; "Edit"; "Glob"; "Grep"; "Bash"];
     CallQuery (VStr "fix the tests")
       (VStr "/repo", ["Read"; "Write"; "Edit"; "Glob"; "Grep"; "Bash"])].
Proof.
  apply (C7_options_arguments
           (sample_env (completed [result_message "success" (Some "done")]))
           sample_stdin sample_request (VStr "fix the tests") sample_context
           (VStr "/repo") eq_refl eq_refl eq_refl eq_refl).
Defined.

(** The stream raises "connection lost" after a result message; and the
    options constructor raises. *)
Lemma C2_witness :
  (stdout
     (fst (main
             (sample_env
                (failing [result_message "success" (Some "done")]
                   connection_lost))
             sample_stdin))
   = [VDict [("output", VStr ""); ("success", VBool false);
             ("error", VStr "connection lost")]]
   /\ snd (main
             (sample_env
                (failing [result_message "success" (Some "done")]
                   connection_lost))
             sample_stdin)
      = inr tt)
  /\ stdout
       (fst (main (sample_env_no_options (TypeError "unexpected argument"))
               sample_stdin))
     = [VDict [("output", VStr ""); ("success", VBool false);
               ("error", VStr "unexpected argument")]].
Proof.
  split.
  - apply (C2_Exception_is_caught
             (sample_env
                (failing [result_message "success" (Some "done")]
                   connection_lost))
             sample_stdin sample_request (VStr "fix the tests")
             sample_context (VStr "/repo")
             eq_refl eq_refl eq_refl eq_refl connection_lost eq_refl).
    right.
    exists (VStr "/repo", allowed_tools),
      [result_message "success" (Some "done")].
    split; reflexivity.
  - apply (C2_Exception_is_caught
             (sample_env_no_options (TypeError "unexpected argument"))
             sample_stdin sample_request (VStr "fix the tests")
             sample_context (VStr "/repo")
             eq_refl eq_refl eq_refl eq_refl
             (TypeError "unexpected argument") eq_refl).
    left. reflexivity.
Defined.

(** C2 as stated fails: the stream raises KeyboardInterrupt, which is not an
    instance of Exception, after a result message.  The clause
    [except Exception] lets it through: nothing is printed and the process
    ends with the exception. *)
Lemma C2_counterexample_KeyboardInterrupt :
  let s := failing [result_message "success" (Some "done")]
             KeyboardInterrupt in
  let env := sample_env s in
  json_loads env sample_stdin = inr sample_request
  /\ getitem sample_request "prompt" = inr (VStr "fix the tests")
  /\ getitem sample_request "context" = inr sample_context
  /\ getitem sample_context "workingDirectory" = inr (VStr "/repo")
  /\ ClaudeAgentOptions env (VStr "/repo") allowed_tools
     = inr (VStr "/repo", allowed_tools)
  /\ query env (VStr "fix the tests") (VStr "/repo", allowed_tools) = s
  /\ main env sample_stdin
     = (mkProcess
          [CallClaudeAgentOptions (VStr "/repo") allowed_tools;
           CallQuery (VStr "fix the tests") (VStr "/repo", allowed_tools)]
          [],
        inl KeyboardInterrupt)
  /\ ~ (stdout (fst (main env sample_stdin))
        = [VDict [("output", VStr ""); ("success", VBool false);
                  ("error", VStr (str KeyboardInterrupt))]]
        /\ snd (main env sample_stdin) = inr tt).
Proof.
  cbv zeta. repeat (split; [reflexivity|]).
  intros [H _]. discriminate H.
Qed.

(** The four malformed requests and a request whose [context] is null; and
    the KeyError of the first, raised by the stream instead. *)
Lemma C4_witness :
  let env := sample_env (completed [result_message "success" (Some "done")]) in
  main env ""
  = (mkProcess [] [],
     inl (JSONDecodeError "Expecting value: line 1 column 1 (char 0)"))
  /\ main env stdin_without_prompt
     = (mkProcess [] [], inl (KeyError "prompt"))
  /\ main env stdin_without_context
     = (mkProcess [] [], inl (KeyError "context"))
  /\ main env stdin_without_workingDirectory
     = (mkProcess [] [], inl (KeyError "workingDirectory"))
  /\ main env stdin_with_null_context
     = (mkProcess [] [],
        inl (TypeError "'NoneType' object is not subscriptable"))
  /\ stdout
       (fst (main (sample_env (failing [] (KeyError "prompt")))
               sample_stdin))
     = [VDict [("output", VStr ""); ("success", VBool false);
               ("error", VStr "'prompt'")]].
Proof.
  cbv zeta.
  set (env := sample_env
                (completed [result_message "success" (Some "done")])).
  repeat apply conj.
  - apply (proj1 (C4_request_failures_uncaught env "")). reflexivity.
  - destruct (C4_request_failures_uncaught env stdin_without_prompt)
      as (_ & H & _).
    apply (H [("context", sample_context)]); reflexivity.
  - destruct (C4_request_failures_uncaught env stdin_without_context)
      as (_ & _ & H & _).
    apply (H [("prompt", VStr "fix the tests")] (VStr "fix the tests"));
      reflexivity.
  - destruct (C4_request_failures_uncaught env
                stdin_without_workingDirectory) as (_ & _ & _ & H & _).
    apply (H [("prompt", VStr "fix the tests"); ("context", VDict [])]
             (VStr "fix the tests") (VDict []));
      reflexivity.
  - destruct (C4_request_failures_uncaught env stdin_with_null_context)
      as (_ & _ & _ & H & _).
    apply (H [("prompt", VStr "fix the tests"); ("context", VNone)]
             (VStr "fix the tests") VNone);
      reflexivity.
  - destruct (C4_request_failures_uncaught
                (sample_env (failing [] (KeyError "prompt"))) sample_stdin)
      as (_ & _ & _ & _ & _ & H).
    apply (H sample_request (VStr "fix the tests") sample_context
             (VStr "/repo") (KeyError "prompt")
             eq_refl eq_refl eq_refl eq_refl eq_refl).
    right. exists (VStr "/repo", allowed_tools), []. split; reflexivity.
Defined.

(** C4 as stated fails in its last clause: an exception raised on the
    query path is not always caught.  The stream yields one message and
    then raises KeyboardInterrupt, which is not an instance of Exception:
    the request was read and both calls were made, yet nothing is printed
    and the process ends with the exception. *)
Lemma C4_counterexample_query_path_uncaught :
  let s := failing [Other "AssistantMessage"] KeyboardInterrupt in
  let env := sample_env s in
  json_loads env sample_stdin = inr sample_request
  /\ getitem sample_request "prompt" = inr (VStr "fix the tests")
  /\ getitem sample_request "context" = inr sample_context
  /\ getitem sample_context "workingDirectory" = inr (VStr "/repo")
  /\ ClaudeAgentOptions env (VStr "/repo") allowed_tools
     = inr (VStr "/repo", allowed_tools)
  /\ query env (VStr "fix the tests") (VStr "/repo", allowed_tools) = s
  /\ main env sample_stdin
     = (mkProcess
          [CallClaudeAgentOptions (VStr "/repo") allowed_tools;
           CallQuery (VStr "fix the tests") (VStr "/repo", allowed_tools)]
          [],
        inl KeyboardInterrupt)
  /\ ~ (exists response,
          stdout (fst (main env sample_stdin)) = [response]
          /\ snd (main env sample_stdin) = inr tt).
Proof.
  cbv zeta. repeat (split; [reflexivity|]).
  intros (response & H & _). discriminate H.
Qed.

(** ** Every run of the script *)

Section Outcomes.

Context {Options OtherMessage ResultAttributes : Type}.
Variable env : Environment Options OtherMessage ResultAttributes.
Variable stdin : string.

(** A generator either yields some messages and is exhausted, or yields
    some messages and raises. *)
Lemma stream_shape (s : stream OtherMessage ResultAttributes) :
  (exists msgs, s = completed msgs)
  \/ (exists msgs e, s = failing msgs e).
Proof.
  induction s as [|e|msg rest [[msgs ->]|(msgs & e & ->)]].
  - left. now exists [].
  - right. now exists [], e.
  - left. now exists (msg :: msgs).
  - right. now exists (msg :: msgs), e.
Qed.

(** Either an exception left the script before the try block, or the
    request was read. *)
Lemma main_before_try :
  (exists e, main env stdin = (mkProcess [] [], inl e))
  \/ (exists request prompt context cwd,
        json_loads env stdin = inr request
        /\ getitem request "prompt" = inr prompt
        /\ getitem request "context" = inr context
        /\ getitem context "workingDirectory" = inr cwd).
Proof.
  destruct (json_loads env stdin) as [e|request] eqn:Hl.
  { left. exists e. now apply main_loads_raises. }
  destruct (getitem request "prompt") as [e|prompt] eqn:Hp.
  { left. exists e. now apply (main_prompt_raises env stdin request). }
  destruct (getitem request "context") as [e|context] eqn:Hc.
  { left. exists e.
    now apply (main_context_raises env stdin request prompt). }
  destruct (getitem context "workingDirectory") as [e|cwd] eqn:Hw.
  { left. exists e.
    now apply (main_workingDirectory_raises env stdin request prompt
                 context). }
  right. now exists request, prompt, context, cwd.
Qed.

(** The five ways a run can go. *)
Lemma main_outcomes :
  (exists e, main env stdin = (mkProcess [] [], inl e))
  \/ (exists cs e,
        cs <> [] /\ isinstance_Exception e = false
        /\ main env stdin = (mkProcess cs [], inl e))
  \/ (exists cs e,
        isinstance_Exception e = true
        /\ main env stdin
           = (mkProcess cs
                [VDict [("output", VStr ""); ("success", VBool false);
                        ("error", VStr (str e))]],
              inr tt))
  \/ (exists request prompt context cwd options msgs,
        json_loads env stdin = inr request
        /\ getitem request "prompt" = inr prompt
        /\ getitem request "context" = inr context
        /\ getitem context "workingDirectory" = inr cwd
        /\ ClaudeAgentOptions env cwd allowed_tools = inr options
        /\ query env prompt options = completed msgs
        /\ main env stdin
           = (mkProcess [CallClaudeAgentOptions cwd allowed_tools;
                         CallQuery prompt options]
                [VDict [("output", VStr (fst (after msgs ("", false))));
                        ("success", VBool (snd (after msgs ("", false))))]],
              inr tt)).
Proof.
  destruct main_before_try
    as [H|(request & prompt & context & cwd & Hl & Hp & Hc & Hw)];
    [now left|right].
  destruct (ClaudeAgentOptions env cwd allowed_tools) as [e|options] eqn:Ho.
  { pose proof (main_options_raises env stdin request prompt context cwd
                  Hl Hp Hc Hw e Ho) as H.
    destruct (isinstance_Exception e) eqn:He.
    - right; left. now exists [CallClaudeAgentOptions cwd allowed_tools], e.
    - left. exists [CallClaudeAgentOptions cwd allowed_tools], e.
      repeat split; [discriminate|exact He|exact H]. }
  destruct (stream_shape (query env prompt options))
    as [[msgs Hq]|(msgs & e & Hq)].
  { right; right.
    exists request, prompt, context, cwd, options, msgs.
    repeat (split; [assumption|]).
    now apply (main_completed env stdin request prompt context cwd). }
  pose proof (main_query env stdin request prompt context cwd
                Hl Hp Hc Hw options Ho) as H.
  rewrite Hq, async_for_failing in H.
  destruct (isinstance_Exception e) eqn:He.
  - right; left.
    now exists [CallClaudeAgentOptions cwd allowed_tools;
                CallQuery prompt options], e.
  - left.
    exists [CallClaudeAgentOptions cwd allowed_tools;
            CallQuery prompt options], e.
    repeat split; [discriminate|exact He|exact H].
Qed.

(** X2: whatever standard input holds and whatever the libraries do, the
    script prints at most one object: exactly one when it returns, and
    none when an exception leaves it. *)
Theorem X2_one_object_iff_returns :
  (snd (main env stdin) = inr tt
   /\ length (stdout (fst (main env stdin))) = 1)
  \/ (exists e,
        snd (main env stdin) = inl e
        /\ stdout (fst (main env stdin)) = []).
Proof.
  destruct main_outcomes
    as [(e & H)|[(cs & e & _ & _ & H)|[(cs & e & _ & H)|H]]].
  - right. exists e. now rewrite H.
  - right. exists e. now rewrite H.
  - left. now rewrite H.
  - destruct H as (? & ? & ? & ? & ? & ? & _ & _ & _ & _ & _ & _ & H).
    left. now rewrite H.
Qed.

(** X3: an object the script prints has one of two shapes: [output] and
    [success] alone, or [output] empty, [success] false and [error] the
    [str] of an instance of Exception.  So an [error] field never comes
    with a text or with [success] true. *)
Theorem X3_response_shape (response : value) :
  In response (stdout (fst (main env stdin))) ->
  (exists output success,
     response = VDict [("output", VStr output); ("success", VBool success)])
  \/ (exists e,
        isinstance_Exception e = true
        /\ response
           = VDict [("output", VStr ""); ("success", VBool false);
                    ("error", VStr (str e))]).
Proof.
  destruct main_outcomes
    as [(e & H)|[(cs & e & _ & _ & H)|[(cs & e & He & H)|H]]].
  - rewrite H. intros [].
  - rewrite H. intros [].
  - rewrite H. intros [<-|[]]. right. now exists e.
  - destruct H as (? & ? & ? & ? & ? & msgs & _ & _ & _ & _ & _ & _ & H).
    rewrite H. intros [<-|[]]. left. now do 2 eexists.
Qed.

(** X4: the script prints [success] true only if the request was read, the
    options were built, the stream was exhausted without raising and its
    last result message has subtype "success"; the script then returns and
    the object has no [error] field. *)
Theorem X4_success_only_if (response : value) :
  In response (stdout (fst (main env stdin))) ->
  field "success" response = Some (VBool true) ->
  exists request prompt context cwd options msgs m,
    json_loads env stdin = inr request
    /\ getitem request "prompt" = inr prompt
    /\ getitem request "context" = inr context
    /\ getitem context "workingDirectory" = inr cwd
    /\ ClaudeAgentOptions env cwd allowed_tools = inr options
    /\ query env prompt options = completed msgs
    /\ last_result msgs = Some m
    /\ subtype m = "success"
    /\ snd (main env stdin) = inr tt
    /\ field "error" response = None.
Proof.
  destruct main_outcomes
    as [(e & H)|[(cs & e & _ & _ & H)|[(cs & e & He & H)|H]]].
  - rewrite H. intros [].
  - rewrite H. intros [].
  - rewrite H. intros [<-|[]]. discriminate.
  - destruct H
      as (request & prompt & context & cwd & options & msgs
          & Hl & Hp & Hc & Hw & Ho & Hq & H).
    rewrite H. intros [<-|[]]. cbn. intro Hs.
    rewrite after_last_result in Hs.
    destruct (last_result msgs) as [m|] eqn:Hlast; [|discriminate].
    exists request, prompt, context, cwd, options, msgs, m.
    repeat (split; [assumption|]). repeat split.
    cbn in Hs. injection Hs as Hs. now apply String.eqb_eq.
Qed.

(** X8: once the script has called the SDK, an exception that leaves it is
    not an instance of Exception; an instance of Exception leaves the
    script only from reading the request, before any call. *)
Theorem X8_Exception_escapes_only_before_calls (e : exception) :
  snd (main env stdin) = inl e ->
  isinstance_Exception e = true ->
  calls (fst (main env stdin)) = [] /\ stdout (fst (main env stdin)) = [].
Proof.
  destruct main_outcomes
    as [(e' & H)|[(cs & e' & _ & He' & H)|[(cs & e' & _ & H)|H]]].
  - rewrite H. now split.
  - rewrite H. cbn. intros [= ->] He. congruence.
  - rewrite H. discriminate.
  - destruct H as (? & ? & ? & ? & ? & ? & _ & _ & _ & _ & _ & _ & H).
    rewrite H. discriminate.
Qed.

End Outcomes.

Section AfterRequest.

Context {Options OtherMessage ResultAttributes : Type}.
Variable env : Environment Options OtherMessage ResultAttributes.
Variable stdin : string.
Variables request prompt context cwd : value.

Hypothesis Hloads : json_loads env stdin = inr request.
Hypothesis Hprompt : getitem request "prompt" = inr prompt.
Hypothesis Hcontext : getitem request "context" = inr context.
Hypothesis Hcwd : getitem context "workingDirectory" = inr cwd.

(** X1: an exception that is not an instance of Exception, raised by the
    options constructor or by the stream after any messages, is not caught:
    nothing is printed and the process ends with that exception. *)
Theorem X1_BaseException_propagates (e : exception) :
  isinstance_Exception e = false ->
  ClaudeAgentOptions env cwd allowed_tools = inl e
  \/ (exists options msgs,
        ClaudeAgentOptions env cwd allowed_tools = inr options
        /\ query env prompt options = failing msgs e) ->
  stdout (fst (main env stdin)) = []
  /\ snd (main env stdin) = inl e.
Proof.
  intros He [H|(options & msgs & Ho & Hq)].
  - rewrite (main_options_raises env stdin request prompt context cwd
               Hloads Hprompt Hcontext Hcwd e H), He.
    now split.
  - rewrite (main_query env stdin request prompt context cwd
               Hloads Hprompt Hcontext Hcwd options Ho).
    rewrite Hq, async_for_failing, He. now split.
Qed.

(** X5: when the stream is exhausted and its last result message carries a
    text, the printed [output] is that text, unchanged (the empty text
    included), with [success] decided by the subtype. *)
Theorem X5_output_is_last_text (options : Options)
    (msgs : list (Message OtherMessage ResultAttributes))
    (m : ResultMessage ResultAttributes) (text : string) :
  ClaudeAgentOptions env cwd allowed_tools = inr options ->
  query env prompt options = completed msgs ->
  last_result msgs = Some m ->
  result m = Some text ->
  main env stdin
  = (mkProcess [CallClaudeAgentOptions cwd allowed_tools;
                CallQuery prompt options]
       [VDict [("output", VStr text);
               ("success", VBool (String.eqb (subtype m) "success"))]],
     inr tt).
Proof.
  intros Ho Hq Hlast Hr.
  rewrite (main_completed env stdin request prompt context cwd
             Hloads Hprompt Hcontext Hcwd options msgs Ho Hq).
  rewrite after_last_result, Hlast. unfold capture. rewrite Hr. cbn.
  destruct (String.eqb_spec text "") as [->|_]; reflexivity.
Qed.

(** X7: the script reads two fields of the request and nothing else.  Two
    inputs that hold the same [prompt] and the same
    [context.workingDirectory] give the same run, whatever other keys they
    carry. *)
Theorem X7_only_two_fields_read (stdin' : string)
    (request' context' : value) :
  json_loads env stdin' = inr request' ->
  getitem request' "prompt" = inr prompt ->
  getitem request' "context" = inr context' ->
  getitem context' "workingDirectory" = inr cwd ->
  main env stdin' = main env stdin.
Proof.
  intros Hl' Hp' Hc' Hw'.
  destruct (ClaudeAgentOptions env cwd allowed_tools) as [e|options] eqn:Ho.
  - rewrite (main_options_raises env stdin request prompt context cwd
               Hloads Hprompt Hcontext Hcwd e Ho).
    now rewrite (main_options_raises env stdin' request' prompt context' cwd
                   Hl' Hp' Hc' Hw' e Ho).
  - rewrite (main_query env stdin request prompt context cwd
               Hloads Hprompt Hcontext Hcwd options Ho).
    now rewrite (main_query env stdin' request' prompt context' cwd
                   Hl' Hp' Hc' Hw' options Ho).
Qed.

End AfterRequest.

Section NotAnObject.

Context {Options OtherMessage ResultAttributes : Type}.
Variable env : Environment Options OtherMessage ResultAttributes.
Variable stdin : string.

(** X6: when standard input is valid JSON but not an object (null, a
    number, a string, an array), the first subscript raises TypeError: no
    call is made, nothing is printed and the process ends with that
    exception. *)
Theorem X6_not_an_object (request : value) :
  json_loads env stdin = inr request ->
  (forall d, request <> VDict d) ->
  main env stdin
  = (mkProcess [] [], inl (TypeError (subscript_message request))).
Proof.
  intros Hl Hnot.
  apply (main_prompt_raises env stdin request); [exact Hl|].
  destruct request; try reflexivity.
  now destruct (Hnot d).
Qed.

End NotAnObject.

(** ** The further properties on sample runs *)

(** The options constructor calls [sys.exit]. *)
Lemma X1_witness :
  stdout (fst (main (sample_env_no_options SystemExit) sample_stdin)) = []
  /\ snd (main (sample_env_no_options SystemExit) sample_stdin)
     = inl SystemExit.
Proof.
  apply (X1_BaseException_propagates (sample_env_no_options SystemExit)
           sample_stdin sample_request (VStr "fix the tests") sample_context
           (VStr "/repo") eq_refl eq_refl eq_refl eq_refl SystemExit eq_refl).
  left. reflexivity.
Defined.

(** The object printed after "connection lost" has the second shape. *)
Lemma X3_witness :
  (exists output success,
     VDict [("output", VStr ""); ("success", VBool false);
            ("error", VStr "connection lost")]
     = VDict [("output", VStr output); ("success", VBool success)])
  \/ (exists e,
        isinstance_Exception e = true
        /\ VDict [("output", VStr ""); ("success", VBool false);
                  ("error", VStr "connection lost")]
           = VDict [("output", VStr ""); ("success", VBool false);
                    ("error", VStr (str e))]).
Proof.
  apply (X3_response_shape (sample_env (failing [] connection_lost))
           sample_stdin).
  left. reflexivity.
Defined.

(** A run that printed [success] true. *)
Lemma X4_witness :
  exists request prompt context cwd options msgs m,
    json_loads (more_env (completed [result_message "success" (Some "done")]))
      sample_stdin = inr request
    /\ getitem request "prompt" = inr prompt
    /\ getitem request "context" = inr context
    /\ getitem context "workingDirectory" = inr cwd
    /\ ClaudeAgentOptions
         (more_env (completed [result_message "success" (Some "done")]))
         cwd allowed_tools = inr options
    /\ query (more_env (completed [result_message "success" (Some "done")]))
         prompt options = completed msgs
    /\ last_result msgs = Some m
    /\ subtype m = "success"
    /\ snd (main
              (more_env (completed [result_message "success" (Some "done")]))
              sample_stdin) = inr tt
    /\ field "error"
         (VDict [("output", VStr "done"); ("success", VBool true)]) = None.
Proof.
  apply (X4_success_only_if
           (more_env (completed [result_message "success" (Some "done")]))
           sample_stdin
           (VDict [("output", VStr "done"); ("success", VBool true)])).
  - left. reflexivity.
  - reflexivity.
Defined.

(** A final result message "success" with the text "done". *)
Lemma X5_witness :
  main
    (sample_env
       (completed
          [Other "AssistantMessage"; result_message "success" (Some "done")]))
    sample_stdin
  = (mkProcess
       [CallClaudeAgentOptions (VStr "/repo") allowed_tools;
        CallQuery (VStr "fix the tests") (VStr "/repo", allowed_tools)]
       [VDict [("output", VStr "done"); ("success", VBool true)]],
     inr tt).
Proof.
  apply (X5_output_is_last_text
           (sample_env
              (completed
                 [Other "AssistantMessage";
                  result_message "success" (Some "done")]))
           sample_stdin sample_request (VStr "fix the tests") sample_context
           (VStr "/repo") eq_refl eq_refl eq_refl eq_refl
           (VStr "/repo", allowed_tools)
           [Other "AssistantMessage"; result_message "success" (Some "done")]
           (mkResultMessage "success" (Some "done") tt) "done"
           eq_refl eq_refl eq_refl eq_refl).
Defined.

(** Standard input holds a JSON array. *)
Lemma X6_witness :
  main (more_env (completed [])) "[1, 2]"
  = (mkProcess [] [],
     inl (TypeError "list indices must be integers or slices, not str")).
Proof.
  apply (X6_not_an_object (more_env (completed [])) "[1, 2]"
           (VList [VInt 1; VInt 2]) eq_refl).
  intros d H. discriminate H.
Defined.

(** The sample request, and the same request with an [id] and a
    [context.branch]. *)
Lemma X7_witness :
  main (more_env (completed [result_message "success" (Some "done")]))
    stdin_with_extra_keys
  = main (more_env (completed [result_message "success" (Some "done")]))
      sample_stdin.
Proof.
  apply (X7_only_two_fields_read
           (more_env (completed [result_message "success" (Some "done")]))
           sample_stdin sample_request (VStr "fix the tests") sample_context
           (VStr "/repo") eq_refl eq_refl eq_refl eq_refl
           stdin_with_extra_keys request_with_extra_keys
           context_with_extra_keys eq_refl eq_refl eq_refl eq_refl).
Defined.

(** The KeyError of a request without [prompt] leaves the script. *)
Lemma X8_witness :
  calls
    (fst (main (sample_env (completed [])) stdin_without_prompt)) = []
  /\ stdout
       (fst (main (sample_env (completed [])) stdin_without_prompt)) = [].
Proof.
  apply (X8_Exception_escapes_only_before_calls (sample_env (completed []))
           stdin_without_prompt (KeyError "prompt") eq_refl eq_refl).
Defined.
